(** * plotlog.py: rendering a JSON well log as side-by-side curve tracks

    A shallow embedding of [src/Python/plotlog.py].  The script loads one JSON
    document, projects the index column and every further column out of the
    row-oriented [data] table, and draws one matplotlib subplot per non-index
    curve.

    - Python exceptions are values of [exn]; a computation that may raise
      returns a [result].
    - The document is the value [json.load] returns: a list whose elements
      are objects in which the keys [curves] and [data] may be missing.
    - A cell of [data] is a JSON number, a Python [int] or [float].  The
      script never inspects it, but matplotlib converts it to a double when
      a line is drawn, and an [int] may be too large for that.
    - Lists are indexed with stdpp's [!!]; a Python [dict] with string keys is
      a [gmap string _].
    - The pyplot state machine (figure, axes stack, current axes) is an
      explicit state threaded through the monad [M]; an axes object obtained
      with [plt.gca()] is a handle into the figure's axes store, so the
      mutations made through [ax] and through [plt] hit the same object. *)

From stdpp Require Import gmap strings list.

(** ** Exceptions and results *)

Inductive exn : Type :=
| IndexError
| KeyError (key : string)
| ValueError
| OverflowError.

Inductive result (A : Type) : Type :=
| Ok (a : A)
| Raise (e : exn).
Arguments Ok {A} a.
Arguments Raise {A} e.

Global Instance result_ret : MRet result := λ A a, Ok a.
Global Instance result_bind : MBind result := λ A B f r,
  match r with
  | Ok a => f a
  | Raise e => Raise e
  end.
Global Instance result_fmap : FMap result := λ A B f r,
  match r with
  | Ok a => Ok (f a)
  | Raise e => Raise e
  end.

(** [l[i]] for a Python list and an index [i >= 0]. *)
Definition list_getitem {A} (l : list A) (i : nat) : result A :=
  match l !! i with
  | Some x => Ok x
  | None => Raise IndexError
  end.

(** [d[k]] for a Python dict with string keys. *)
Definition dict_getitem {V} (d : gmap string V) (k : string) : result V :=
  match d !! k with
  | Some v => Ok v
  | None => Raise (KeyError k)
  end.

(** [list(map(f, l))]: the elements are visited in order and the first
    exception raised by [f] aborts the whole expression. *)
Fixpoint py_map {A B} (f : A → result B) (l : list A) : result (list B) :=
  match l with
  | [] => Ok []
  | x :: l' =>
      y ← f x;
      ys ← py_map f l';
      Ok (y :: ys)
  end.

(** ** Cell values *)

(** A JSON number as [json.load] returns it: a Python [int], of any size, or
    a Python [float], which is a double, kept as its 64 bits. *)
Inductive number : Type :=
| PyInt (n : Z)
| PyFloat (bits : N).

(** The cells of [data] are numbers: [cell_number c] is the number the cell
    [c] holds.  A table of integers has cells in [Z]. *)
Class Cell (num : Type) : Type := cell_number : num → number.

Global Instance number_cell : Cell number := λ v, v.
Global Instance int_cell : Cell Z := PyInt.

(** When [plt.plot] draws a line it converts every cell of the two series to
    a double; [float_error c] is the exception of that conversion for the
    cell [c], if there is one.  A [float] is a double already.  For an [int],
    [float(n)] rounds [n] to the nearest double, ties to even, and raises
    [OverflowError] when the result is beyond the largest double
    [2 ** 1024 - 2 ** 971]: that is from [2 ** 1024 - 2 ** 970] on, in either
    direction. *)
Definition float_error {num} `{!Cell num} (c : num) : option exn :=
  match cell_number c with
  | PyInt n =>
      if decide (2 ^ 1024 - 2 ^ 970 ≤ Z.abs n)%Z then Some OverflowError
      else None
  | PyFloat _ => None
  end.

(** ** Data model *)

(** A curve's metadata object, e.g. [{"name": "Depth", "unit": "m"}]. *)
Abbreviation Curve := (gmap string string).

Section Plotlog.

(** The cell values of [data]. *)
Context {num : Type} `{!Cell num}.

Abbreviation Row := (list num).

Record Log : Type := {
  curves : list Curve;
  data : list Row
}.

(** An element of the document as [json.load] returns it: an object in
    which either key may be missing. *)
Record Entry : Type := {
  entry_curves : option (list Curve);
  entry_data : option (list Row)
}.

(** The object that has both keys. *)
Definition complete (log : Log) : Entry := {|
  entry_curves := Some (curves log);
  entry_data := Some (data log)
|}.

(** [entry[k]], where [o] is what the object holds under the key [k]. *)
Definition entry_getitem {A} (o : option A) (k : string) : result A :=
  match o with
  | Some v => Ok v
  | None => Raise (KeyError k)
  end.

(** ** Column extraction (lines 10 and 13) *)

(** [index = list(map(lambda row: row[0], data))] *)
Definition index (rows : list Row) : result (list num) :=
  py_map (λ row, list_getitem row 0) rows.

(** [curve = list(map(lambda row: row[curveIndex], data))] *)
Definition curve (curveIndex : nat) (rows : list Row) : result (list num) :=
  py_map (λ row, list_getitem row curveIndex) rows.

(** ** The pyplot state *)

Inductive side : Type := Bottom | Top.

(** One axes object.  [ax_yticklabels = None] means that the tick labels are
    produced by the default formatter; [Some ls] that they were fixed to [ls]. *)
Record Axes : Type := {
  ax_nrows : nat;
  ax_ncols : nat;
  ax_num : nat;
  ax_lines : list (list num * list num);
  ax_yinverted : bool;
  ax_xticks : side;
  ax_xlabel_position : side;
  ax_yticklabels : option (list string);
  ax_xlabel : string;
  ax_ylabel : string
}.

(** The axes [fig.add_subplot(nrows, ncols, num)] creates. *)
Definition new_axes (nrows ncols n : nat) : Axes := {|
  ax_nrows := nrows; ax_ncols := ncols; ax_num := n;
  ax_lines := [];
  ax_yinverted := false;
  ax_xticks := Bottom;
  ax_xlabel_position := Bottom;
  ax_yticklabels := None;
  ax_xlabel := EmptyString;
  ax_ylabel := EmptyString
|}.

Definition subplotspec (ax : Axes) : nat * nat * nat :=
  (ax_nrows ax, ax_ncols ax, ax_num ax).

(** The current figure: its axes in creation order, the handle of the
    current axes, the figure title and whether [show] was reached. *)
Record Pyplot : Type := {
  fig_axes : list Axes;
  fig_current : option nat;
  fig_suptitle : option string;
  fig_shown : bool
}.

Definition fresh_pyplot : Pyplot := {|
  fig_axes := [];
  fig_current := None;
  fig_suptitle := None;
  fig_shown := false
|}.

(** ** The monad of the script: pyplot state and exceptions *)

Definition M (A : Type) : Type := Pyplot → result (A * Pyplot).

Definition ret {A} (a : A) : M A := λ s, Ok (a, s).

Definition bind {A B} (m : M A) (f : A → M B) : M B := λ s,
  match m s with
  | Ok (a, s') => f a s'
  | Raise e => Raise e
  end.

(** An expression that does not touch the figure. *)
Definition lift {A} (r : result A) : M A := λ s,
  match r with
  | Ok a => Ok (a, s)
  | Raise e => Raise e
  end.

Definition modify (f : Pyplot → Pyplot) : M unit := λ s, Ok ((), f s).

Notation "'let!' x ':=' m 'in' k" := (bind m (λ x, k))
  (at level 10, x name, m at level 100, k at level 200, only parsing).
Notation "m ';;;' k" := (bind m (λ _, k))
  (at level 100, k at level 200, right associativity, only parsing).

(** [for x in l: body(x)] *)
Fixpoint for_each {A} (l : list A) (body : A → M unit) : M unit :=
  match l with
  | [] => ret ()
  | x :: l' => body x ;;; for_each l' body
  end.

(** ** The matplotlib calls the script makes *)

Definition set_axes (axs : list Axes) (cur : option nat) (s : Pyplot) : Pyplot :=
  {| fig_axes := axs; fig_current := cur;
     fig_suptitle := fig_suptitle s; fig_shown := fig_shown s |}.

(** [plt.gca()]: the current axes; a figure without axes gets a
    [(1, 1, 1)] subplot first. *)
Definition plt_gca : M nat := λ s,
  match fig_current s with
  | Some h => Ok (h, s)
  | None =>
      let h := length (fig_axes s) in
      Ok (h, set_axes (fig_axes s ++ [new_axes 1 1 1]) (Some h) s)
  end.

(** A mutation of the axes object behind handle [h]. *)
Definition update_axes (h : nat) (f : Axes → Axes) : M unit :=
  modify (λ s, set_axes (alter f h (fig_axes s)) (fig_current s) s).

(** [plt.subplot(nrows, ncols, n)]: [ValueError] unless
    [1 <= n <= nrows * ncols]; an axes of the figure with the same subplot
    spec is made current again, otherwise a new axes is added and made
    current. *)
Definition plt_subplot (nrows ncols n : nat) : M unit := λ s,
  if decide (1 ≤ n ∧ n ≤ nrows * ncols) then
    match list_find (λ ax, subplotspec ax = (nrows, ncols, n)) (fig_axes s) with
    | Some (h, _) => Ok ((), set_axes (fig_axes s) (Some h) s)
    | None =>
        Ok ((), set_axes (fig_axes s ++ [new_axes nrows ncols n])
                         (Some (length (fig_axes s))) s)
    end
  else Raise ValueError.

Definition add_line (x y : list num) (ax : Axes) : Axes := {|
  ax_nrows := ax_nrows ax; ax_ncols := ax_ncols ax; ax_num := ax_num ax;
  ax_lines := ax_lines ax ++ [(x, y)];
  ax_yinverted := ax_yinverted ax;
  ax_xticks := ax_xticks ax;
  ax_xlabel_position := ax_xlabel_position ax;
  ax_yticklabels := ax_yticklabels ax;
  ax_xlabel := ax_xlabel ax;
  ax_ylabel := ax_ylabel ax
|}.

(** The conversion of a series to an array of doubles: the first cell that
    cannot be converted raises its exception. *)
Definition to_float_array (x : list num) : result (list num) :=
  py_map (λ c, match float_error c with
               | Some e => Raise e
               | None => Ok c
               end) x.

(** [plt.plot(x, y)]: a line through the points [zip(x, y)] on the current
    axes; [ValueError] when the two sequences differ in length, and the
    exception of the conversion when a cell of [x] or of [y] has no
    double. *)
Definition plt_plot (x y : list num) : M unit :=
  let! h := plt_gca in
  if decide (length x = length y) then
    (lift (to_float_array x) ;;;
     lift (to_float_array y) ;;;
     update_axes h (add_line x y))
  else lift (Raise ValueError).

Definition invert_yaxis (ax : Axes) : Axes := {|
  ax_nrows := ax_nrows ax; ax_ncols := ax_ncols ax; ax_num := ax_num ax;
  ax_lines := ax_lines ax;
  ax_yinverted := negb (ax_yinverted ax);
  ax_xticks := ax_xticks ax;
  ax_xlabel_position := ax_xlabel_position ax;
  ax_yticklabels := ax_yticklabels ax;
  ax_xlabel := ax_xlabel ax;
  ax_ylabel := ax_ylabel ax
|}.

Definition tick_top (ax : Axes) : Axes := {|
  ax_nrows := ax_nrows ax; ax_ncols := ax_ncols ax; ax_num := ax_num ax;
  ax_lines := ax_lines ax;
  ax_yinverted := ax_yinverted ax;
  ax_xticks := Top;
  ax_xlabel_position := ax_xlabel_position ax;
  ax_yticklabels := ax_yticklabels ax;
  ax_xlabel := ax_xlabel ax;
  ax_ylabel := ax_ylabel ax
|}.

Definition set_label_position (p : side) (ax : Axes) : Axes := {|
  ax_nrows := ax_nrows ax; ax_ncols := ax_ncols ax; ax_num := ax_num ax;
  ax_lines := ax_lines ax;
  ax_yinverted := ax_yinverted ax;
  ax_xticks := ax_xticks ax;
  ax_xlabel_position := p;
  ax_yticklabels := ax_yticklabels ax;
  ax_xlabel := ax_xlabel ax;
  ax_ylabel := ax_ylabel ax
|}.

Definition set_yticklabels (ls : list string) (ax : Axes) : Axes := {|
  ax_nrows := ax_nrows ax; ax_ncols := ax_ncols ax; ax_num := ax_num ax;
  ax_lines := ax_lines ax;
  ax_yinverted := ax_yinverted ax;
  ax_xticks := ax_xticks ax;
  ax_xlabel_position := ax_xlabel_position ax;
  ax_yticklabels := Some ls;
  ax_xlabel := ax_xlabel ax;
  ax_ylabel := ax_ylabel ax
|}.

Definition set_xlabel (l : string) (ax : Axes) : Axes := {|
  ax_nrows := ax_nrows ax; ax_ncols := ax_ncols ax; ax_num := ax_num ax;
  ax_lines := ax_lines ax;
  ax_yinverted := ax_yinverted ax;
  ax_xticks := ax_xticks ax;
  ax_xlabel_position := ax_xlabel_position ax;
  ax_yticklabels := ax_yticklabels ax;
  ax_xlabel := l;
  ax_ylabel := ax_ylabel ax
|}.

Definition set_ylabel (l : string) (ax : Axes) : Axes := {|
  ax_nrows := ax_nrows ax; ax_ncols := ax_ncols ax; ax_num := ax_num ax;
  ax_lines := ax_lines ax;
  ax_yinverted := ax_yinverted ax;
  ax_xticks := ax_xticks ax;
  ax_xlabel_position := ax_xlabel_position ax;
  ax_yticklabels := ax_yticklabels ax;
  ax_xlabel := ax_xlabel ax;
  ax_ylabel := l
|}.

(** [plt.xlabel(l)] and [plt.ylabel(l)] act on the current axes. *)
Definition plt_xlabel (l : string) : M unit :=
  let! h := plt_gca in update_axes h (set_xlabel l).

Definition plt_ylabel (l : string) : M unit :=
  let! h := plt_gca in update_axes h (set_ylabel l).

(** [plt.gcf().suptitle(t)] *)
Definition plt_suptitle (t : string) : M unit :=
  modify (λ s, {| fig_axes := fig_axes s; fig_current := fig_current s;
                  fig_suptitle := Some t; fig_shown := fig_shown s |}).

(** [plt.show()] *)
Definition plt_show : M unit :=
  modify (λ s, {| fig_axes := fig_axes s; fig_current := fig_current s;
                  fig_suptitle := fig_suptitle s; fig_shown := true |}).

(** ** The script *)

(** [f'{curves[i]["name"]} [{curves[i]["unit"]}]'] *)
Definition label (cs : list Curve) (i : nat) : result string :=
  c ← list_getitem cs i;
  name ← dict_getitem c "name"%string;
  c' ← list_getitem cs i;
  unit ← dict_getitem c' "unit"%string;
  Ok (name +:+ " [" +:+ unit +:+ "]")%string.

(** The body of the [for] loop (lines 13 to 25). *)
Definition loop_body (cs : list Curve) (rows : list Row) (idx : list num)
    (curveIndex : nat) : M unit :=
  let! crv := lift (curve curveIndex rows) in
  plt_subplot 1 (length cs) curveIndex ;;;
  plt_plot crv idx ;;;
  let! ax := plt_gca in
  update_axes ax invert_yaxis ;;;
  update_axes ax tick_top ;;;
  update_axes ax (set_label_position Top) ;;;
  (if decide (1 < curveIndex) then update_axes ax (set_yticklabels [])
   else ret ()) ;;;
  (if decide (curveIndex = 1) then
     let! l := lift (label cs 0) in plt_ylabel l
   else ret ()) ;;;
  let! l := lift (label cs curveIndex) in
  plt_xlabel l.

(** Lines 7 to 28, run on the parsed document [file]. *)
Definition script (file : list Entry) : M unit :=
  let! cs := lift (entry ← list_getitem file 0;
                   entry_getitem (entry_curves entry) "curves"%string) in
  let! rows := lift (entry ← list_getitem file 0;
                     entry_getitem (entry_data entry) "data"%string) in
  let! idx := lift (index rows) in
  for_each (seq 1 (length cs - 1)) (loop_body cs rows idx) ;;;
  plt_suptitle "JSON Well Log"%string ;;;
  plt_show.

(** The figure on screen when the script ends normally, or the exception
    that terminates it. *)
Definition plotlog (file : list Entry) : result Pyplot :=
  snd <$> script file fresh_pyplot.

(** ** Well-formed documents (section 3 of the specification) *)

(** The metadata object carries both keys the renderer reads. *)
Definition has_keys (c : Curve) : Prop :=
  is_Some (c !! "name"%string) ∧ is_Some (c !! "unit"%string).

(** Every curve has a name and a unit, and every row has one cell per
    curve. *)
Definition well_formed (log : Log) : Prop :=
  Forall has_keys (curves log) ∧
  Forall (λ row : Row, length row = length (curves log)) (data log).

(** A cell that matplotlib can convert to a double. *)
Definition plottable (c : num) : Prop := float_error c = None.

(** ** The track drawn by one iteration

    What iteration [curveIndex] of the loop leaves behind, as a function of
    the inputs alone: the axes it adds to the figure, or the exception that
    ends it.  [loop_body_track] below shows that the imperative body
    computes exactly this. *)
Definition track (cs : list Curve) (rows : list Row) (idx : list num)
    (curveIndex : nat) : result Axes :=
  crv ← curve curveIndex rows;
  _ ← to_float_array crv;
  _ ← to_float_array idx;
  yl ← (if decide (curveIndex = 1) then label cs 0 else Ok EmptyString);
  xl ← label cs curveIndex;
  Ok {| ax_nrows := 1; ax_ncols := length cs; ax_num := curveIndex;
        ax_lines := [(crv, idx)];
        ax_yinverted := true;
        ax_xticks := Top;
        ax_xlabel_position := Top;
        ax_yticklabels := if decide (1 < curveIndex) then Some [] else None;
        ax_xlabel := xl;
        ax_ylabel := yl |}.

End Plotlog.

Arguments Log : clear implicits.
Arguments Entry : clear implicits.
Arguments Axes : clear implicits.
Arguments Pyplot : clear implicits.

Coercion complete : Log >-> Entry.

(** ** Sample documents *)

(** [{"name": name, "unit": unit}] *)
Definition meta (name unit : string) : Curve :=
  <["name"%string := name]> (<["unit"%string := unit]> ∅).

(** The scenario of section 8 of the specification: a depth index and one
    gamma-ray curve. *)
Definition gamma_log : Log Z := {|
  curves := [meta "Depth" "m"; meta "Gamma" "API"];
  data := [[0; 10]; [1; 20]; [2; 15]]%Z
|}.

(** The figure the script shows for [gamma_log]. *)
Definition gamma_fig : Pyplot Z := {|
  fig_axes := [
    {| ax_nrows := 1; ax_ncols := 2; ax_num := 1;
       ax_lines := [([10; 20; 15]%Z, [0; 1; 2]%Z)];
       ax_yinverted := true;
       ax_xticks := Top;
       ax_xlabel_position := Top;
       ax_yticklabels := None;
       ax_xlabel := "Gamma [API]";
       ax_ylabel := "Depth [m]" |} ];
  fig_current := Some 0;
  fig_suptitle := Some "JSON Well Log"%string;
  fig_shown := true
|}.

(** A log with two tracks next to the depth index. *)
Definition triple_log : Log Z := {|
  curves := [meta "Depth" "m"; meta "Gamma" "API"; meta "Porosity" "%"];
  data := [[0; 10; 5]; [1; 20; 7]; [2; 15; 6]]%Z
|}.

Definition triple_fig : Pyplot Z := {|
  fig_axes := [
    {| ax_nrows := 1; ax_ncols := 3; ax_num := 1;
       ax_lines := [([10; 20; 15]%Z, [0; 1; 2]%Z)];
       ax_yinverted := true;
       ax_xticks := Top;
       ax_xlabel_position := Top;
       ax_yticklabels := None;
       ax_xlabel := "Gamma [API]";
       ax_ylabel := "Depth [m]" |};
    {| ax_nrows := 1; ax_ncols := 3; ax_num := 2;
       ax_lines := [([5; 7; 6]%Z, [0; 1; 2]%Z)];
       ax_yinverted := true;
       ax_xticks := Top;
       ax_xlabel_position := Top;
       ax_yticklabels := Some [];
       ax_xlabel := "Porosity [%]";
       ax_ylabel := EmptyString |} ];
  fig_current := Some 1;
  fig_suptitle := Some "JSON Well Log"%string;
  fig_shown := true
|}.

(** Degenerate documents: no curves at all, and curves without any row. *)
Definition no_curves_log : Log Z := {| curves := []; data := [] |}.

Definition no_data_log : Log Z := {|
  curves := [meta "Depth" "m"; meta "Gamma" "API"];
  data := []
|}.

(** The second curve has lost its unit. *)
Definition unitless_log : Log Z := {|
  curves := [meta "Depth" "m"; <["name"%string := "Gamma"%string]> ∅];
  data := [[0; 10]; [1; 20]]%Z
|}.

(** The second row has lost its last cell. *)
Definition ragged_log : Log Z := {|
  curves := [meta "Depth" "m"; meta "Gamma" "API"];
  data := [[0; 10]; [1]; [2; 15]]%Z
|}.

(** ** What the script needs of a document *)

Section Renderable.
Context {num : Type} `{!Cell num}.

(** The cells the script reads in every row: one for the index column and
    one per curve. *)
Definition cells_needed (log : Log num) : nat :=
  max 1 (length (curves log)).

(** Rows with enough cells and, as soon as there is a curve to draw, curve
    metadata with both keys and cells that can be converted wherever the
    index or a curve reads them. *)
Definition renderable (log : Log num) : Prop :=
  Forall (λ row, cells_needed log ≤ length row) (data log) ∧
  (2 ≤ length (curves log) →
   Forall has_keys (curves log) ∧
   Forall (λ row, Forall plottable (take (length (curves log)) row))
     (data log)).

(** The key whose lookup fails first when the label of [c] is formatted. *)
Definition missing_key (c : Curve) : option string :=
  match c !! "name"%string with
  | None => Some "name"%string
  | Some _ =>
      match c !! "unit"%string with
      | None => Some "unit"%string
      | Some _ => None
      end
  end.

(** The figure on screen after lines 27 and 28, given the axes drawn by the
    loop: the last subplot is the current axes. *)
Definition shown_figure (axs : list (Axes num)) : Pyplot num := {|
  fig_axes := axs;
  fig_current := (if axs is [] then None else Some (length axs - 1));
  fig_suptitle := Some "JSON Well Log"%string;
  fig_shown := true
|}.

(** The log with every row cut down to the cells the script reads. *)
Definition trim (log : Log num) : Log num := {|
  curves := curves log;
  data := take (cells_needed log) <$> data log
|}.

(** Two metadata objects that agree on the two keys the script reads. *)
Definition same_labels (c c' : Curve) : Prop :=
  c !! "name"%string = c' !! "name"%string ∧
  c !! "unit"%string = c' !! "unit"%string.

End Renderable.

(** A well-formed log with an integer that has no double. *)
Definition huge_log : Log Z := {|
  curves := [meta "Depth" "m"; meta "Gamma" "API"];
  data := [[0; 10]; [1; 2 ^ 1024]]%Z
|}.

(** The figure of [triple_log] between the two iterations of the loop. *)
Definition triple_half : Pyplot Z :=
  set_axes (take 1 (fig_axes triple_fig)) (Some 0) fresh_pyplot.

(** A depth column alone, with metadata that has no key at all. *)
Definition depth_only_log : Log Z := {|
  curves := [∅];
  data := [[0]; [1]]%Z
|}.

(** An empty row in the table, and metadata without keys. *)
Definition blank_row_log : Log Z := {|
  curves := [∅; ∅];
  data := [[0; 10]; []]%Z
|}.

(** [gamma_log] with a cell more than curves in every row and a further key
    in the metadata of the gamma curve. *)
Definition wide_log : Log Z := {|
  curves := [meta "Depth" "m";
             <["description"%string := "natural gamma ray"%string]>
               (meta "Gamma" "API")];
  data := [[0; 10; 7]; [1; 20; 8]; [2; 15; 9]]%Z
|}.

(** * Properties *)

(** ** [py_map] *)

Section PyMap.
Context {A B : Type}.
Implicit Types (f : A → result B) (l : list A) (ys : list B).

Lemma py_map_Ok f l ys :
  py_map f l = Ok ys ↔ Forall2 (λ x y, f x = Ok y) l ys.
Proof.
  revert ys. induction l as [|x l IH]; intros ys; simpl.
  - split.
    + intros [= <-]. constructor.
    + intros H. by inversion H.
  - destruct (f x) as [y|e] eqn:Hx; simpl.
    + destruct (py_map f l) as [ys'|e] eqn:Hl; simpl.
      * split.
        -- intros [= <-]. constructor; [done|]. by apply IH.
        -- intros H. inversion H as [|? y' ? ys'' Hy Hys]; subst.
           apply IH in Hys. congruence.
      * split; [done|].
        intros H. inversion H as [|? y' ? ys'' Hy Hys]; subst.
        apply IH in Hys. done.
    + split; [done|].
      intros H. inversion H; congruence.
Qed.

Lemma py_map_length f l ys : py_map f l = Ok ys → length ys = length l.
Proof. rewrite py_map_Ok. intros H. symmetry. by eapply Forall2_length. Qed.

Lemma py_map_lookup f l ys k x :
  py_map f l = Ok ys → l !! k = Some x → ∃ y, ys !! k = Some y ∧ f x = Ok y.
Proof.
  rewrite py_map_Ok. intros H Hk.
  destruct (Forall2_lookup_l _ _ _ _ _ H Hk) as (y & ? & ?). eauto.
Qed.

Lemma py_map_total f l :
  (∀ x, x ∈ l → ∃ y, f x = Ok y) → ∃ ys, py_map f l = Ok ys.
Proof.
  induction l as [|x l IH]; intros Hf; simpl; [by eexists|].
  destruct (Hf x) as [y ->]; [by left|]. simpl.
  destruct IH as [ys ->]; [intros; apply Hf; by right|]. simpl. by eexists.
Qed.

(** The exception of [list(map(f, l))] is raised by [f] on an element. *)
Lemma py_map_Raise_inv f l e :
  py_map f l = Raise e → ∃ x, x ∈ l ∧ f x = Raise e.
Proof.
  induction l as [|x l IH]; simpl; [done|].
  destruct (f x) as [y|e'] eqn:Hx; simpl.
  - destruct (py_map f l) as [ys|e'] eqn:Hl; simpl; [done|].
    intros [= ->]. destruct IH as (x' & ? & ?); [done|].
    exists x'. split; [by right|done].
  - intros [= ->]. exists x. split; [by left|done].
Qed.

(** One failing element makes the whole expression fail. *)
Lemma py_map_Raise f l x e :
  x ∈ l → f x = Raise e → ∃ e', py_map f l = Raise e'.
Proof.
  intros Hx Hf. destruct (py_map f l) as [ys|e'] eqn:Hl; [|by eexists].
  apply list_elem_of_lookup in Hx as [k Hk].
  destruct (py_map_lookup _ _ _ _ _ Hl Hk) as (y & _ & ?). congruence.
Qed.

End PyMap.

Section Properties.
Context {num : Type} `{!Cell num}.
Implicit Types (rows : list (list num)) (cs : list Curve) (idx crv : list num).
Implicit Types (log : Log num) (file : list (Entry num)).
Implicit Types (s : Pyplot num) (ax : Axes num).

(** ** Column extraction *)

Lemma index_curve rows : index rows = curve 0 rows.
Proof. reflexivity. Qed.

Lemma curve_Ok_lookup i rows crv k row :
  curve i rows = Ok crv → rows !! k = Some row →
  ∃ v, crv !! k = Some v ∧ row !! i = Some v.
Proof.
  intros Hc Hk. destruct (py_map_lookup _ _ _ _ _ Hc Hk) as (v & Hv & Hg).
  exists v. split; [done|]. unfold list_getitem in Hg.
  by destruct (row !! i); simplify_eq.
Qed.

Lemma curve_length i rows crv : curve i rows = Ok crv → length crv = length rows.
Proof. apply py_map_length. Qed.

Lemma curve_Raise i rows e : curve i rows = Raise e → e = IndexError.
Proof.
  intros H. apply py_map_Raise_inv in H as (row & _ & H).
  unfold list_getitem in H. by destruct (row !! i); simplify_eq.
Qed.

Lemma curve_total i rows :
  Forall (λ row, i < length row) rows → ∃ crv, curve i rows = Ok crv.
Proof.
  intros Hall. apply py_map_total. intros row Hrow.
  rewrite Forall_forall in Hall. apply Hall in Hrow.
  apply lookup_lt_is_Some_2 in Hrow as [v Hv].
  exists v. unfold list_getitem. by rewrite Hv.
Qed.

Lemma curve_short i rows row :
  row ∈ rows → length row ≤ i → curve i rows = Raise IndexError.
Proof.
  intros Hrow Hlen.
  assert (list_getitem row i = Raise IndexError) as Hg.
  { unfold list_getitem. by rewrite (lookup_ge_None_2 row i). }
  destruct (py_map_Raise (λ r, list_getitem r i) _ _ _ Hrow Hg) as [e He].
  unfold curve. rewrite He. f_equal. by eapply curve_Raise.
Qed.

(** ** The loop body computes [track] *)

Lemma alter_last {X} (f : X → X) (l : list X) (x : X) :
  alter f (length l) (l ++ [x]) = l ++ [f x].
Proof. induction l as [|y l IH]; simpl; [done|]. f_equal. exact IH. Qed.

Lemma list_find_fresh s nrows ncols n :
  Forall (λ ax, ax_num ax < n) (fig_axes s) →
  list_find (λ ax, subplotspec ax = (nrows, ncols, n)) (fig_axes s) = None.
Proof.
  intros Hlt. apply list_find_None.
  eapply Forall_impl; [exact Hlt|]. intros ax Hax Heq.
  unfold subplotspec in Heq. injection Heq as _ _ Hn. simpl in Hax. lia.
Qed.

Ltac run_pyplot :=
  unfold plt_xlabel, plt_ylabel, plt_suptitle, plt_show, plt_gca, update_axes,
    modify, bind, ret, lift, set_axes; simpl.

Lemma loop_body_track cs rows idx i s :
  1 ≤ i ≤ length cs →
  length idx = length rows →
  Forall (λ ax, ax_num ax < i) (fig_axes s) →
  loop_body cs rows idx i s =
    match track cs rows idx i with
    | Ok ax =>
        Ok ((), set_axes (fig_axes s ++ [ax]) (Some (length (fig_axes s))) s)
    | Raise e => Raise e
    end.
Proof.
  intros Hi Hidx Hfresh. unfold loop_body, track, bind at 1, lift at 1.
  destruct (curve i rows) as [crv|e] eqn:Hcrv; simpl; [|done].
  unfold bind at 1, plt_subplot.
  rewrite decide_True by lia. rewrite list_find_fresh by done.
  unfold bind at 1, plt_plot, bind at 1, plt_gca. simpl.
  rewrite decide_True by (rewrite (curve_length _ _ _ Hcrv); done).
  unfold bind at 1, lift at 1.
  destruct (to_float_array crv) as [?|e]; simpl; [|done].
  unfold bind at 1, lift at 1.
  destruct (to_float_array idx) as [?|e]; simpl; [|done].
  unfold update_axes, modify, bind. simpl.
  rewrite !alter_last. simpl.
  destruct (decide (i = 1)) as [->|Hne].
  - rewrite decide_False by lia. unfold ret, lift.
    destruct (label cs 0) as [yl|e]; simpl; [|done].
    destruct (label cs 1) as [xl|e]; simpl; [|done].
    run_pyplot. by rewrite !alter_last.
  - rewrite !decide_True by lia. unfold ret, lift. simpl.
    destruct (label cs i) as [xl|e]; simpl; [|done].
    run_pyplot. by rewrite !alter_last.
Qed.

Lemma track_num cs rows idx i ax : track cs rows idx i = Ok ax → ax_num ax = i.
Proof.
  unfold track. destruct (curve i rows) as [crv|]; simpl; [|done].
  destruct (to_float_array crv); simpl; [|done].
  destruct (to_float_array idx); simpl; [|done].
  destruct (if decide (i = 1) then _ else _); simpl; [|done].
  destruct (label cs i); simpl; [|done]. by intros [= <-].
Qed.

(** The loop appends one track per index, in the order of the range. *)
Lemma for_each_tracks cs rows idx n : ∀ a s,
  1 ≤ a → a + n ≤ S (length cs) →
  length idx = length rows →
  Forall (λ ax, ax_num ax < a) (fig_axes s) →
  for_each (seq a n) (loop_body cs rows idx) s =
    match py_map (track cs rows idx) (seq a n) with
    | Ok axs =>
        Ok ((), set_axes (fig_axes s ++ axs)
                  (if axs is [] then fig_current s
                   else Some (length (fig_axes s) + length axs - 1)) s)
    | Raise e => Raise e
    end.
Proof.
  induction n as [|n IH]; intros a s Ha Hn Hidx Hfresh; simpl.
  - unfold ret, set_axes. rewrite app_nil_r. by destruct s.
  - unfold bind. rewrite loop_body_track by (done || lia).
    destruct (track cs rows idx a) as [ax|e] eqn:Hax; simpl; [|done].
    rewrite IH; [|lia|lia|done|]; simpl.
    + destruct (py_map (track cs rows idx) (seq (S a) n)) as [axs|e];
        simpl; [|done].
      unfold set_axes. simpl. rewrite <- app_assoc. simpl.
      do 3 f_equal. rewrite length_app. simpl.
      destruct axs; simpl; f_equal; lia.
    + apply Forall_app. split.
      * eapply Forall_impl; [exact Hfresh|]. simpl. intros; lia.
      * constructor; [|constructor]. rewrite (track_num _ _ _ _ _ Hax). lia.
Qed.

(** ** The script as a function of the document *)

Theorem plotlog_tracks file :
  plotlog file =
    (entry ← list_getitem file 0;
     cs ← entry_getitem (entry_curves entry) "curves"%string;
     rows ← entry_getitem (entry_data entry) "data"%string;
     idx ← index rows;
     axs ← py_map (track cs rows idx) (seq 1 (length cs - 1));
     Ok {| fig_axes := axs;
           fig_current := (if axs is [] then None else Some (length axs - 1));
           fig_suptitle := Some "JSON Well Log"%string;
           fig_shown := true |}).
Proof.
  unfold plotlog, script, bind at 1, lift at 1.
  destruct (list_getitem file 0) as [entry|e]; simpl; [|done].
  destruct (entry_getitem (entry_curves entry) _) as [cs|e]; simpl; [|done].
  unfold bind at 1, lift at 1.
  destruct (entry_getitem (entry_data entry) _) as [rows|e]; simpl; [|done].
  unfold bind at 1, lift at 1.
  destruct (index rows) as [idx|e] eqn:Hidx; simpl; [|done].
  unfold bind at 1.
  rewrite for_each_tracks by
    (simpl; first [lia | by apply curve_length in Hidx | by constructor]).
  by destruct (py_map _ (seq 1 _)) as [axs|e].
Qed.

(** The script on a first element that has both keys. *)
Lemma plotlog_complete file log :
  file !! 0 = Some (complete log) →
  plotlog file =
    (idx ← index (data log);
     axs ← py_map (track (curves log) (data log) idx)
                  (seq 1 (length (curves log) - 1));
     Ok {| fig_axes := axs;
           fig_current := (if axs is [] then None else Some (length axs - 1));
           fig_suptitle := Some "JSON Well Log"%string;
           fig_shown := true |}).
Proof.
  intros Hlog. rewrite plotlog_tracks. unfold list_getitem. by rewrite Hlog.
Qed.

(** ** Conversion of a series *)

Lemma to_float_array_Ok (x : list num) :
  Forall plottable x → to_float_array x = Ok x.
Proof.
  intros Hx. apply py_map_Ok, Forall_Forall2_diag.
  eapply Forall_impl; [exact Hx|]. intros c Hc.
  unfold plottable in Hc. by rewrite Hc.
Qed.

Lemma to_float_array_Ok_inv (x y : list num) :
  to_float_array x = Ok y → Forall plottable x.
Proof.
  intros Hx. apply py_map_Ok in Hx. apply Forall_forall. intros c Hc.
  apply list_elem_of_lookup in Hc as [k Hk].
  destruct (Forall2_lookup_l _ _ _ _ _ Hx Hk) as (c' & _ & Hfe).
  unfold plottable. by destruct (float_error c).
Qed.

Lemma to_float_array_Raise_inv (x : list num) e :
  to_float_array x = Raise e → ∃ c, c ∈ x ∧ float_error c = Some e.
Proof.
  intros Hx. apply py_map_Raise_inv in Hx as (c & Hc & Hfe).
  exists c. split; [done|]. destruct (float_error c); by simplify_eq.
Qed.

(** The cells of a column are the cells the rows hold at its position. *)
Lemma curve_cells i rows crv (P : num → Prop) :
  curve i rows = Ok crv →
  Forall P crv ↔ Forall (λ row, ∀ c, row !! i = Some c → P c) rows.
Proof.
  intros Hcrv. pose proof (curve_length _ _ _ Hcrv) as Hlen. split.
  - intros HP. apply Forall_lookup. intros k row Hrow c Hc.
    destruct (curve_Ok_lookup _ _ _ _ _ Hcrv Hrow) as (v & Hv & Hrv).
    simplify_eq. by eapply Forall_lookup_1.
  - intros HP. apply Forall_lookup. intros k v Hv.
    destruct (lookup_lt_is_Some_2 rows k) as [row Hrow].
    { rewrite <- Hlen. by eapply lookup_lt_Some. }
    destruct (curve_Ok_lookup _ _ _ _ _ Hcrv Hrow) as (v' & Hv' & Hrv).
    simplify_eq. by eapply (Forall_lookup_1 _ _ _ _ HP Hrow).
Qed.

Lemma curve_plottable i rows crv :
  curve i rows = Ok crv → Forall (Forall plottable) rows →
  Forall plottable crv.
Proof.
  intros Hcrv Hall. apply (curve_cells _ _ _ plottable Hcrv).
  eapply Forall_impl; [exact Hall|]. intros row Hrow c Hc.
  eapply Forall_lookup_1; [exact Hrow|exact Hc].
Qed.

(** ** Axis labels *)

Lemma label_Ok cs i c name unit :
  cs !! i = Some c →
  c !! "name"%string = Some name → c !! "unit"%string = Some unit →
  label cs i = Ok (name +:+ " [" +:+ unit +:+ "]")%string.
Proof.
  intros Hc Hn Hu. unfold label, list_getitem, dict_getitem.
  rewrite Hc. simpl. rewrite Hn. simpl. by rewrite Hu.
Qed.

Lemma label_Ok_inv cs i l :
  label cs i = Ok l →
  ∃ c name unit, cs !! i = Some c ∧
    c !! "name"%string = Some name ∧ c !! "unit"%string = Some unit ∧
    l = (name +:+ " [" +:+ unit +:+ "]")%string.
Proof.
  unfold label, list_getitem, dict_getitem.
  destruct (cs !! i) as [c|]; simpl; [|done].
  destruct (c !! "name"%string) as [name|] eqn:Hn; simpl; [|done].
  destruct (c !! "unit"%string) as [unit|] eqn:Hu; simpl; [|done].
  intros [= <-]. by exists c, name, unit.
Qed.

Lemma label_has_keys cs i :
  i < length cs → Forall has_keys cs → ∃ l, label cs i = Ok l.
Proof.
  intros Hi Hall. apply lookup_lt_is_Some_2 in Hi as [c Hc].
  destruct (Forall_lookup_1 _ _ _ _ Hall Hc) as [[name Hn] [unit Hu]].
  eexists. by eapply label_Ok.
Qed.

Lemma label_missing cs i c :
  cs !! i = Some c → ¬ has_keys c → ∃ e, label cs i = Raise e.
Proof.
  intros Hc Hk. destruct (label cs i) as [l|e] eqn:Hl; [|by eexists].
  apply label_Ok_inv in Hl as (c' & name & unit & Hc' & Hn & Hu & _).
  simplify_eq. destruct Hk. split; by eexists.
Qed.

Lemma label_Raise cs i e :
  i < length cs → label cs i = Raise e → ∃ k, e = KeyError k.
Proof.
  intros Hi. apply lookup_lt_is_Some_2 in Hi as [c Hc].
  unfold label, list_getitem, dict_getitem. rewrite Hc. simpl.
  destruct (c !! "name"%string); simpl; [|intros [= <-]; by eexists].
  destruct (c !! "unit"%string); simpl; [done|intros [= <-]; by eexists].
Qed.

(** ** What a track looks like *)

Lemma track_Ok_inv cs rows idx i ax :
  track cs rows idx i = Ok ax →
  ∃ crv xl yl,
    curve i rows = Ok crv ∧ label cs i = Ok xl ∧
    (if decide (i = 1) then label cs 0 = Ok yl else yl = EmptyString) ∧
    ax = {| ax_nrows := 1; ax_ncols := length cs; ax_num := i;
            ax_lines := [(crv, idx)];
            ax_yinverted := true;
            ax_xticks := Top;
            ax_xlabel_position := Top;
            ax_yticklabels := if decide (1 < i) then Some [] else None;
            ax_xlabel := xl;
            ax_ylabel := yl |}.
Proof.
  unfold track. destruct (curve i rows) as [crv|]; simpl; [|done].
  destruct (to_float_array crv); simpl; [|done].
  destruct (to_float_array idx); simpl; [|done].
  destruct (decide (i = 1)) as [->|Hne].
  - destruct (label cs 0) as [yl|]; simpl; [|done].
    destruct (label cs 1) as [xl|]; simpl; [|done].
    intros [= <-]. by exists crv, xl, yl.
  - simpl. destruct (label cs i) as [xl|]; simpl; [|done].
    intros [= <-]. by exists crv, xl, EmptyString.
Qed.

(** A track that is drawn has converted its column and the index column. *)
Lemma track_Ok_plottable cs rows idx i ax :
  track cs rows idx i = Ok ax →
  ∃ crv, curve i rows = Ok crv ∧ Forall plottable crv ∧ Forall plottable idx.
Proof.
  unfold track. destruct (curve i rows) as [crv|]; simpl; [|done].
  destruct (to_float_array crv) eqn:Hcrv; simpl; [|done].
  destruct (to_float_array idx) eqn:Hidx; simpl; [|done].
  intros _. exists crv. split; [done|].
  split; by eapply to_float_array_Ok_inv.
Qed.

Lemma track_total cs rows idx i :
  1 ≤ i < length cs →
  Forall has_keys cs → Forall (λ row, i < length row) rows →
  Forall (λ row, ∀ c, row !! i = Some c → plottable c) rows →
  Forall plottable idx →
  ∃ ax, track cs rows idx i = Ok ax.
Proof.
  intros Hi Hkeys Hrows Hcells Hidx. unfold track.
  destruct (curve_total i rows Hrows) as [crv Hcrv]. rewrite Hcrv. simpl.
  rewrite (to_float_array_Ok crv)
    by (by apply (curve_cells _ _ _ plottable Hcrv)).
  simpl. rewrite (to_float_array_Ok idx) by done. simpl.
  destruct (label_has_keys cs 0) as [yl Hyl]; [lia|done|].
  destruct (label_has_keys cs i) as [xl ->]; [lia|done|].
  destruct (decide (i = 1)); [rewrite Hyl|]; simpl; by eexists.
Qed.

(** ** Runs that reach [show] *)

Lemma plotlog_Ok_inv file log fig :
  file !! 0 = Some (complete log) → plotlog file = Ok fig →
  ∃ idx, index (data log) = Ok idx ∧
    Forall2 (λ i ax, track (curves log) (data log) idx i = Ok ax)
      (seq 1 (length (curves log) - 1)) (fig_axes fig) ∧
    fig_suptitle fig = Some "JSON Well Log"%string ∧ fig_shown fig = true.
Proof.
  intros Hlog. rewrite (plotlog_complete _ _ Hlog).
  destruct (index (data log)) as [idx|] eqn:Hidx; simpl; [|done].
  destruct (py_map _ (seq 1 _)) as [axs|] eqn:Haxs; simpl; [|done].
  intros [= <-]. exists idx. simpl. by apply py_map_Ok in Haxs.
Qed.

(** The subplot of curve position [i] is the axes with handle [i - 1]. *)
Lemma plotlog_Ok_track file log fig :
  file !! 0 = Some (complete log) → plotlog file = Ok fig →
  ∃ idx, index (data log) = Ok idx ∧
    length (fig_axes fig) = length (curves log) - 1 ∧
    ∀ i, 1 ≤ i < length (curves log) →
      ∃ ax, fig_axes fig !! (i - 1) = Some ax ∧
        track (curves log) (data log) idx i = Ok ax.
Proof.
  intros Hlog Hfig.
  destruct (plotlog_Ok_inv _ _ _ Hlog Hfig) as (idx & Hidx & Hall & _).
  exists idx. split; [done|]. split.
  - apply Forall2_length in Hall. by rewrite length_seq in Hall.
  - intros i Hi.
    assert (seq 1 (length (curves log) - 1) !! (i - 1) = Some i) as Hseq.
    { apply lookup_seq. lia. }
    destruct (Forall2_lookup_l _ _ _ _ _ Hall Hseq) as (ax & ? & ?). eauto.
Qed.

Lemma take_cells_plottable n i (row : list num) c :
  Forall plottable (take n row) → i < n → row !! i = Some c → plottable c.
Proof.
  intros Hrow Hi Hc. eapply Forall_lookup_1; [exact Hrow|].
  by rewrite lookup_take_lt.
Qed.

(** Curves with both keys and rows that are long enough, with cells that
    can be converted wherever a curve reads them, are all the script
    needs. *)
Lemma plotlog_total file log :
  file !! 0 = Some (complete log) →
  Forall has_keys (curves log) →
  Forall (λ row, 1 ≤ length row ∧ length (curves log) ≤ length row) (data log) →
  Forall (λ row, Forall plottable (take (length (curves log)) row))
    (data log) →
  ∃ fig, plotlog file = Ok fig.
Proof.
  intros Hlog Hkeys Hrows Hcells. rewrite (plotlog_complete _ _ Hlog).
  destruct (curve_total 0 (data log)) as [idx Hidx].
  { eapply Forall_impl; [exact Hrows|]. simpl. intros; lia. }
  rewrite index_curve, Hidx. simpl.
  destruct (decide (length (curves log) ≤ 1)) as [HN|HN].
  { replace (length (curves log) - 1) with 0 by lia. simpl. by eexists. }
  destruct (py_map_total (track (curves log) (data log) idx)
              (seq 1 (length (curves log) - 1))) as [axs ->].
  { intros i Hi. apply elem_of_seq in Hi.
    apply track_total; [lia|done| | |].
    - eapply Forall_impl; [exact Hrows|]. simpl. intros; lia.
    - eapply Forall_impl; [exact Hcells|]. simpl. intros row Hrow c Hc.
      eapply take_cells_plottable; [exact Hrow| |exact Hc]. lia.
    - apply (curve_cells _ _ _ plottable Hidx).
      eapply Forall_impl; [exact Hcells|]. simpl. intros row Hrow c Hc.
      eapply take_cells_plottable; [exact Hrow| |exact Hc]. lia. }
  simpl. by eexists.
Qed.

Lemma plotlog_well_formed file log :
  file !! 0 = Some (complete log) → well_formed log → 1 ≤ length (curves log) →
  Forall (Forall plottable) (data log) →
  ∃ fig, plotlog file = Ok fig.
Proof.
  intros Hlog [Hkeys Hrows] HK Hcells. eapply plotlog_total; [done..| |].
  - eapply Forall_impl; [exact Hrows|]. simpl. intros; lia.
  - eapply Forall_impl; [exact Hcells|]. simpl. intros row Hrow.
    by apply Forall_take.
Qed.

(** A track that cannot be drawn ends the script. *)
Lemma plotlog_track_Raise file log i :
  file !! 0 = Some (complete log) → 1 ≤ i < length (curves log) →
  (∀ idx, ∃ e, track (curves log) (data log) idx i = Raise e) →
  ∃ e, plotlog file = Raise e.
Proof.
  intros Hlog Hi Hfail. rewrite (plotlog_complete _ _ Hlog).
  destruct (index (data log)) as [idx|e]; simpl; [|by eexists].
  destruct (Hfail idx) as [e He].
  destruct (py_map_Raise (track (curves log) (data log) idx)
              (seq 1 (length (curves log) - 1)) i e) as [e' ->]; [|done|].
  - apply elem_of_seq. lia.
  - simpl. by eexists.
Qed.

Lemma curve_Ok_fmap i rows crv :
  curve i rows = Ok crv → Some <$> crv = (λ row, row !! i) <$> rows.
Proof.
  intros H. apply py_map_Ok in H.
  induction H as [|row v rows crv Hv _ IH]; csimpl; [done|].
  rewrite IH. f_equal. unfold list_getitem in Hv.
  by destruct (row !! i); simplify_eq.
Qed.

(** * The claims of the specification *)

(** C1: for every valid column position [i] (smaller than the length of every
    row), the extracted column is the projection [[row[i] for row in data]],
    cell by cell and in the order of the rows; the index column is the case
    [i = 0]. *)
Theorem curve_projection rows i :
  Forall (λ row, i < length row) rows →
  ∃ col, curve i rows = Ok col ∧
    Some <$> col = (λ row, row !! i) <$> rows ∧
    (i = 0 → index rows = Ok col).
Proof.
  intros Hvalid. destruct (curve_total i rows Hvalid) as [col Hcol].
  exists col. split; [done|]. split; [by apply curve_Ok_fmap|].
  intros ->. by rewrite index_curve.
Qed.


(** C3, as the script has it: the subplot of the curve at position
    [curveIndex] is created in a grid of one row whose declared width is the
    number of curves [N], at position [curveIndex] of that grid; these are
    all the axes of the figure, so the last cell of the grid stays empty. *)
Theorem subplot_grid file log fig :
  file !! 0 = Some (complete log) → plotlog file = Ok fig →
  (∀ i, 1 ≤ i < length (curves log) →
     ∃ ax, fig_axes fig !! (i - 1) = Some ax ∧
       ax_nrows ax = 1 ∧ ax_ncols ax = length (curves log) ∧ ax_num ax = i) ∧
  length (fig_axes fig) = length (curves log) - 1 ∧
  Forall (λ ax, ax_num ax ≠ length (curves log)) (fig_axes fig).
Proof.
  intros Hlog Hfig.
  destruct (plotlog_Ok_track _ _ _ Hlog Hfig) as (idx & _ & Hlen & Hax).
  split; [|split; [done|]].
  - intros i Hi.
    destruct (Hax i Hi) as (ax & Hlook & Htrack). exists ax. split; [done|].
    apply track_Ok_inv in Htrack as (crv & xl & yl & _ & _ & _ & ->). done.
  - destruct (plotlog_Ok_inv _ _ _ Hlog Hfig) as (idx' & _ & Hall & _).
    apply Forall_lookup. intros j ax Hj.
    destruct (Forall2_lookup_r _ _ _ _ _ Hall Hj) as (i & Hi & Htrack).
    apply lookup_seq in Hi. rewrite (track_num _ _ _ _ _ Htrack). lia.
Qed.

(** C4, as the script has it: in a well-formed document with at least two
    curves, all of whose cells matplotlib can convert to a double, the first
    subplot (position 1) carries the vertical axis label ["{name} [{unit}]"]
    of curve 0 and keeps its tick labels; every subplot at a position greater
    than 1 has its vertical tick labels set to the empty list and no vertical
    axis label. *)
Theorem vertical_labels file log :
  file !! 0 = Some (complete log) → well_formed log →
  2 ≤ length (curves log) →
  Forall (Forall plottable) (data log) →
  ∃ fig first c0 name unit,
    plotlog file = Ok fig ∧
    fig_axes fig !! 0 = Some first ∧ ax_num first = 1 ∧
    curves log !! 0 = Some c0 ∧
    c0 !! "name"%string = Some name ∧ c0 !! "unit"%string = Some unit ∧
    ax_ylabel first = (name +:+ " [" +:+ unit +:+ "]")%string ∧
    ax_yticklabels first = None ∧
    ∀ ax, ax ∈ fig_axes fig → 1 < ax_num ax →
      ax_yticklabels ax = Some [] ∧ ax_ylabel ax = EmptyString.
Proof.
  intros Hlog Hwf HN Hcells.
  destruct (plotlog_well_formed file log Hlog Hwf) as [fig Hfig]; [lia|done|].
  destruct (plotlog_Ok_track _ _ _ Hlog Hfig) as (idx & _ & _ & Hax).
  destruct (Hax 1) as (first & Hfirst & Htrack); [lia|].
  apply track_Ok_inv in Htrack as (crv & xl & yl & _ & _ & Hyl & ->).
  simpl in Hyl.
  apply label_Ok_inv in Hyl as (c0 & name & unit & Hc0 & Hn & Hu & ->).
  exists fig. eexists. exists c0, name, unit. repeat (split; [done|]).
  intros ax Hin Hnum.
  destruct (plotlog_Ok_inv _ _ _ Hlog Hfig) as (idx' & _ & Hall & _).
  apply list_elem_of_lookup in Hin as [j Hj].
  destruct (Forall2_lookup_r _ _ _ _ _ Hall Hj) as (i & _ & Htrack).
  apply track_Ok_inv in Htrack as (crv' & xl' & yl' & _ & _ & Hyl' & ->).
  simpl in *. rewrite decide_True by done.
  by rewrite decide_False in Hyl' by lia.
Qed.

(** C5: the subplot of the curve at position [i], [1 <= i <= N - 1], has the
    horizontal axis label ["{name} [{unit}]"] of curve [i], and its
    horizontal ticks and label sit at the top edge. *)
Theorem horizontal_labels file log fig i :
  file !! 0 = Some (complete log) → plotlog file = Ok fig →
  1 ≤ i ≤ length (curves log) - 1 →
  ∃ ax c name unit,
    fig_axes fig !! (i - 1) = Some ax ∧ ax_num ax = i ∧
    curves log !! i = Some c ∧
    c !! "name"%string = Some name ∧ c !! "unit"%string = Some unit ∧
    ax_xlabel ax = (name +:+ " [" +:+ unit +:+ "]")%string ∧
    ax_xticks ax = Top ∧ ax_xlabel_position ax = Top.
Proof.
  intros Hlog Hfig Hi.
  destruct (plotlog_Ok_track _ _ _ Hlog Hfig) as (idx & _ & _ & Hax).
  destruct (Hax i) as (ax & Hlook & Htrack); [lia|].
  apply track_Ok_inv in Htrack as (crv & xl & yl & _ & Hxl & _ & ->).
  apply label_Ok_inv in Hxl as (c & name & unit & Hc & Hn & Hu & ->).
  eexists. by exists c, name, unit.
Qed.


(** C7, as the script has it: when the document has at least two curves and
    the metadata of any curve lacks the [name] or the [unit] key, the script
    ends with an exception and never shows a figure. *)
Theorem missing_key_fails file log i c :
  file !! 0 = Some (complete log) → 2 ≤ length (curves log) →
  curves log !! i = Some c → ¬ has_keys c →
  ∃ e, plotlog file = Raise e.
Proof.
  intros Hlog HN Hc Hkeys.
  pose proof (lookup_lt_Some _ _ _ Hc) as Hi.
  destruct (label_missing _ _ _ Hc Hkeys) as [e He].
  destruct (decide (i = 0)) as [->|Hne].
  - apply (plotlog_track_Raise file log 1); [done|lia|].
    intros idx. unfold track.
    destruct (curve 1 (data log)) as [crv|]; simpl; [|by eexists].
    destruct (to_float_array crv); simpl; [|by eexists].
    destruct (to_float_array idx); simpl; [|by eexists].
    rewrite He. simpl. by eexists.
  - apply (plotlog_track_Raise file log i); [done|lia|].
    intros idx. unfold track.
    destruct (curve i (data log)) as [crv|]; simpl; [|by eexists].
    destruct (to_float_array crv); simpl; [|by eexists].
    destruct (to_float_array idx); simpl; [|by eexists].
    destruct (if decide (i = 1) then _ else _); simpl; [|by eexists].
    rewrite He. simpl. by eexists.
Qed.

(** C8: with an empty [data] list the index column and the column of every
    curve position are empty, [plt.plot] accepts the two empty series in
    any state of the figure, and the only exception the script can still end
    with is the [KeyError] of a curve without [name] or [unit]. *)
Theorem empty_data_columns log :
  data log = [] →
  index (data log) = Ok [] ∧
  (∀ i, curve i (data log) = Ok []) ∧
  (∀ s, ∃ s', plt_plot [] [] s = Ok ((), s')) ∧
  (∀ file e, file !! 0 = Some (complete log) → plotlog file = Raise e →
     ∃ k, e = KeyError k).
Proof.
  intros Hdata. rewrite Hdata. split; [done|]. split; [done|]. split.
  - intros s. unfold plt_plot, bind, plt_gca.
    destruct (fig_current s); simpl; by eexists.
  - intros file e Hlog. rewrite (plotlog_complete _ _ Hlog).
    rewrite Hdata. simpl.
    destruct (py_map _ (seq 1 _)) as [axs|e'] eqn:Haxs; simpl; [done|].
    intros [= ->].
    apply py_map_Raise_inv in Haxs as (i & Hi & Htrack).
    apply elem_of_seq in Hi. unfold track in Htrack. simpl in Htrack.
    destruct (decide (i = 1)) as [->|Hne].
    + destruct (label (curves log) 0) as [yl|e'] eqn:Hyl; simpl in Htrack.
      * destruct (label (curves log) 1) as [xl|e'] eqn:Hxl; simpl in Htrack;
          [done|]. simplify_eq. eapply label_Raise; [|done]. lia.
      * simplify_eq. eapply label_Raise; [|done]. lia.
    + simpl in Htrack.
      destruct (label (curves log) i) as [xl|e'] eqn:Hxl; simpl in Htrack;
        [done|]. simplify_eq. eapply label_Raise; [|done]. lia.
Qed.

(** C9: a row that is too short for a column position makes the extraction
    of that column end with [IndexError]; when the position is one the script
    asks for (below the number of curves), the script ends with an
    exception. *)
Theorem short_row_fails log row i :
  row ∈ data log → length row ≤ i →
  curve i (data log) = Raise IndexError ∧
  (i = 0 → index (data log) = Raise IndexError) ∧
  (i < length (curves log) →
     ∀ file, file !! 0 = Some (complete log) → ∃ e, plotlog file = Raise e).
Proof.
  intros Hrow Hlen.
  pose proof (curve_short i (data log) row Hrow Hlen) as Hfail.
  split; [done|]. split; [by intros ->|].
  intros Hi file Hlog. destruct (decide (i = 0)) as [->|Hne].
  - rewrite (plotlog_complete _ _ Hlog).
    rewrite index_curve, Hfail. simpl. by eexists.
  - apply (plotlog_track_Raise file log i); [done|lia|].
    intros idx. unfold track. rewrite Hfail. simpl. by eexists.
Qed.

(** C10: whenever extraction succeeds, the index column and the column of
    every curve position have as many entries as [data] has rows, so each
    plotted series is as long as the index axis. *)
Theorem column_lengths rows i idx crv :
  index rows = Ok idx → curve i rows = Ok crv →
  length idx = length rows ∧ length crv = length rows ∧
  length crv = length idx.
Proof.
  intros Hidx Hcrv. apply curve_length in Hidx, Hcrv. lia.
Qed.

End Properties.

(** * Further properties of the script *)

Section PyMapMore.
Context {A B : Type}.
Implicit Types (f g : A → result B) (l : list A).

Lemma py_map_ext f g l :
  (∀ x, x ∈ l → f x = g x) → py_map f l = py_map g l.
Proof.
  induction l as [|x l IH]; intros Hfg; simpl; [done|].
  rewrite (Hfg x) by left. rewrite IH; [done|].
  intros y Hy. apply Hfg. by right.
Qed.

Lemma py_map_fmap {C} (h : C → A) f (l : list C) :
  py_map f (h <$> l) = py_map (λ x, f (h x)) l.
Proof. induction l as [|x l IH]; csimpl; [done|]. by rewrite IH. Qed.

Lemma py_map_app f l1 l2 :
  py_map f (l1 ++ l2) =
    (ys1 ← py_map f l1; ys2 ← py_map f l2; Ok (ys1 ++ ys2)).
Proof.
  induction l1 as [|x l1 IH]; simpl.
  - by destruct (py_map f l2).
  - destruct (f x) as [y|e]; simpl; [|done]. rewrite IH.
    destruct (py_map f l1) as [ys1|e]; simpl; [|done].
    by destruct (py_map f l2).
Qed.

(** The exception of the first element that fails is the one raised. *)
Lemma py_map_first_Raise f l1 x l2 ys e :
  py_map f l1 = Ok ys → f x = Raise e → py_map f (l1 ++ x :: l2) = Raise e.
Proof. intros H1 Hx. rewrite py_map_app, H1. simpl. by rewrite Hx. Qed.

End PyMapMore.

Section Script.
Context {num : Type} `{!Cell num}.
Implicit Types (rows : list (list num)) (cs : list Curve) (idx crv : list num).
Implicit Types (log : Log num) (file : list (Entry num)).
Implicit Types (s : Pyplot num) (ax : Axes num).

(** ** Where an exception can come from *)

Lemma curve_Ok_inv i rows crv :
  curve i rows = Ok crv → Forall (λ row, i < length row) rows.
Proof.
  intros Hcrv. apply Forall_lookup. intros k row Hrow.
  destruct (curve_Ok_lookup _ _ _ _ _ Hcrv Hrow) as (v & _ & Hv).
  by eapply lookup_lt_Some.
Qed.

Lemma label_missing_key cs i c k :
  cs !! i = Some c → missing_key c = Some k → label cs i = Raise (KeyError k).
Proof.
  intros Hc. unfold missing_key, label, list_getitem, dict_getitem.
  rewrite Hc. simpl.
  destruct (c !! "name"%string); simpl; [|by intros [= <-]].
  destruct (c !! "unit"%string); simpl; [done|by intros [= <-]].
Qed.

Lemma label_Raise_key cs i e :
  i < length cs → label cs i = Raise e →
  e = KeyError "name" ∨ e = KeyError "unit".
Proof.
  intros Hi. apply lookup_lt_is_Some_2 in Hi as [c Hc].
  unfold label, list_getitem, dict_getitem. rewrite Hc. simpl.
  destruct (c !! "name"%string); simpl; [|intros [= <-]; by left].
  destruct (c !! "unit"%string); simpl; [done|intros [= <-]; by right].
Qed.

(** The exception of an iteration is raised by the extraction of its
    column, by the conversion of one of the two series, or by a label. *)
Lemma track_Raise_inv cs rows idx i e :
  track cs rows idx i = Raise e →
  curve i rows = Raise e ∨
  (∃ crv, curve i rows = Ok crv ∧
     (to_float_array crv = Raise e ∨ to_float_array idx = Raise e)) ∨
  (i = 1 ∧ label cs 0 = Raise e) ∨
  label cs i = Raise e.
Proof.
  unfold track. destruct (curve i rows) as [crv|e']; simpl;
    [|intros [= ->]; by left].
  destruct (to_float_array crv) as [?|e'] eqn:Hcrv; simpl;
    [|intros [= ->]; right; left; exists crv; by auto].
  destruct (to_float_array idx) as [?|e'] eqn:Hidx; simpl;
    [|intros [= ->]; right; left; exists crv; by auto].
  destruct (decide (i = 1)) as [->|Hne].
  - destruct (label cs 0) as [yl|e']; simpl;
      [|intros [= ->]; right; right; by left].
    destruct (label cs 1) as [xl|e']; simpl;
      [done|intros [= ->]; right; right; by right].
  - simpl. destruct (label cs i) as [xl|e']; simpl;
      [done|intros [= ->]; right; right; by right].
Qed.

Lemma track_Ok cs rows idx i crv xl yl :
  curve i rows = Ok crv →
  Forall plottable crv → Forall plottable idx →
  label cs i = Ok xl →
  (i = 1 → label cs 0 = Ok yl) →
  ∃ ax, track cs rows idx i = Ok ax.
Proof.
  intros Hcrv Hpc Hpi Hxl Hyl. unfold track. rewrite Hcrv. simpl.
  rewrite (to_float_array_Ok crv Hpc). simpl.
  rewrite (to_float_array_Ok idx Hpi). simpl.
  destruct (decide (i = 1)) as [Hi|Hi].
  - rewrite (Hyl Hi). simpl. rewrite Hxl. simpl. by eexists.
  - simpl. rewrite Hxl. simpl. by eexists.
Qed.

(** An exception of the script on a first element with both keys is the
    exception of the index column or the exception of one iteration. *)
Lemma plotlog_Raise_inv file log e :
  file !! 0 = Some (complete log) → plotlog file = Raise e →
  index (data log) = Raise e ∨
  ∃ idx i, index (data log) = Ok idx ∧ 1 ≤ i < length (curves log) ∧
    track (curves log) (data log) idx i = Raise e.
Proof.
  intros Hlog. rewrite (plotlog_complete _ _ Hlog). intros Hfail.
  destruct (index (data log)) as [idx|e'] eqn:Hidx; simpl in Hfail;
    [|left; congruence].
  right. exists idx.
  destruct (py_map _ (seq 1 _)) as [axs|e'] eqn:Haxs; simpl in Hfail; [done|].
  simplify_eq. apply py_map_Raise_inv in Haxs as (i & Hi & Htrack).
  apply elem_of_seq in Hi. exists i. split; [done|]. split; [lia|done].
Qed.

(** With cells that can all be converted, no conversion raises. *)
Lemma conversion_never_raises rows i crv idx e :
  Forall (Forall plottable) rows →
  curve i rows = Ok crv → index rows = Ok idx →
  ¬ (to_float_array crv = Raise e ∨ to_float_array idx = Raise e).
Proof.
  intros Hcells Hcrv Hidx [Hfail|Hfail].
  - rewrite (to_float_array_Ok crv) in Hfail; [done|].
    by eapply curve_plottable.
  - rewrite (to_float_array_Ok idx) in Hfail; [done|].
    by eapply curve_plottable.
Qed.

Lemma curve_Raise_row i rows e :
  curve i rows = Raise e → ∃ row, row ∈ rows ∧ length row ≤ i.
Proof.
  intros Hfail. apply py_map_Raise_inv in Hfail as (row & Hrow & Hget).
  exists row. split; [done|]. unfold list_getitem in Hget.
  destruct (row !! i) eqn:Hi; [done|]. by apply lookup_ge_None_1.
Qed.

Lemma label_Ok_has_keys cs i l c :
  label cs i = Ok l → cs !! i = Some c → has_keys c.
Proof.
  intros Hl Hc.
  apply label_Ok_inv in Hl as (c' & name & unit & Hc' & Hn & Hu & _).
  simplify_eq. split; by eexists.
Qed.

Lemma label_prefix_has_keys cs i j :
  Forall has_keys (take i cs) → j < i → j < length cs →
  ∃ l, label cs j = Ok l.
Proof.
  intros Hkeys Hji Hj. apply lookup_lt_is_Some_2 in Hj as [c Hc].
  assert (has_keys c) as [[name Hn] [unit Hu]].
  { eapply Forall_lookup_1; [exact Hkeys|]. by rewrite lookup_take_lt. }
  eexists. by eapply label_Ok.
Qed.

Lemma label_same_labels cs cs' i :
  Forall2 same_labels cs cs' → label cs i = label cs' i.
Proof.
  intros Hsame. unfold label, list_getitem, dict_getitem.
  apply Forall2_lookup with (i := i) in Hsame.
  destruct Hsame as [c c' [Hn Hu]|]; simpl; [|done].
  by rewrite Hn, Hu.
Qed.

Lemma curve_take i n rows :
  i < n → curve i (take n <$> rows) = curve i rows.
Proof.
  intros Hi. unfold curve. rewrite py_map_fmap.
  apply py_map_ext. intros row _. unfold list_getitem.
  by rewrite lookup_take_lt.
Qed.

(** ** Column extraction, both ways *)

(** X13: extracting column [i] fails exactly when some row has no cell at
    position [i], and the exception is then always [IndexError]. *)
Theorem curve_fails_iff i rows e :
  curve i rows = Raise e ↔
  e = IndexError ∧ ∃ row, row ∈ rows ∧ length row ≤ i.
Proof.
  split.
  - intros Hfail. split; [by eapply curve_Raise|by eapply curve_Raise_row].
  - intros [-> (row & Hrow & Hlen)]. by eapply curve_short.
Qed.

(** X14: the column of a table that continues with further rows is the
    column of the first rows followed by the column of the further rows; the
    first part that fails decides the exception. *)
Theorem curve_app i rows1 rows2 :
  curve i (rows1 ++ rows2) =
    (crv1 ← curve i rows1; crv2 ← curve i rows2; Ok (crv1 ++ crv2)).
Proof. apply py_map_app. Qed.

(** ** The exceptions of the script *)

(** X3: when the first element of the document has both keys, every curve
    has a name and a unit and every cell can be converted to a double, the
    only exception left is [IndexError]. *)
Theorem complete_metadata_IndexError file log e :
  file !! 0 = Some (complete log) → Forall has_keys (curves log) →
  Forall (Forall plottable) (data log) →
  plotlog file = Raise e → e = IndexError.
Proof.
  intros Hlog Hkeys Hcells Hfail.
  apply (plotlog_Raise_inv _ _ _ Hlog) in Hfail
    as [Hidx|(idx & i & Hidx & Hi & Htrack)].
  - by eapply curve_Raise.
  - apply track_Raise_inv in Htrack
      as [Hcrv|[(crv & Hcrv & Hconv)|[[-> Hyl]|Hxl]]].
    + by eapply curve_Raise.
    + by destruct (conversion_never_raises _ _ _ _ e Hcells Hcrv Hidx).
    + destruct (label_has_keys (curves log) 0) as [l Hl]; [lia|done|].
      congruence.
    + destruct (label_has_keys (curves log) i) as [l Hl]; [lia|done|].
      congruence.
Qed.

(** X4: when the first element of the document has both keys, every row
    has a cell for the index and for each curve and every cell can be
    converted to a double, the only exceptions left are the two [KeyError]s
    of the labels. *)
Theorem long_rows_KeyError file log e :
  file !! 0 = Some (complete log) →
  Forall (λ row, cells_needed log ≤ length row) (data log) →
  Forall (Forall plottable) (data log) →
  plotlog file = Raise e →
  e = KeyError "name" ∨ e = KeyError "unit".
Proof.
  intros Hlog Hrows Hcells Hfail. unfold cells_needed in Hrows.
  assert (∀ i e', i < 1 `max` length (curves log) →
            curve i (data log) ≠ Raise e') as Hcurve.
  { intros i e' Hi Hcrv. apply curve_Raise_row in Hcrv as (row & Hrow & ?).
    rewrite Forall_forall in Hrows. apply Hrows in Hrow. lia. }
  apply (plotlog_Raise_inv _ _ _ Hlog) in Hfail
    as [Hidx|(idx & i & Hidx & Hi & Htrack)].
  - rewrite index_curve in Hidx. apply Hcurve in Hidx; [done|lia].
  - apply track_Raise_inv in Htrack
      as [Hcrv|[(crv & Hcrv & Hconv)|[[-> Hyl]|Hxl]]].
    + apply Hcurve in Hcrv; [done|lia].
    + by destruct (conversion_never_raises _ _ _ _ e Hcells Hcrv Hidx).
    + eapply label_Raise_key; [|done]. lia.
    + eapply label_Raise_key; [|done]. lia.
Qed.

(** X6: a row without any cell ends the script with [IndexError] at line 10,
    before any curve metadata is read and whatever the curves are. *)
Theorem empty_row_IndexError file log :
  file !! 0 = Some (complete log) → [] ∈ data log →
  plotlog file = Raise IndexError.
Proof.
  intros Hlog Hrow. rewrite (plotlog_complete _ _ Hlog).
  rewrite index_curve, (curve_short 0 (data log) []); [done..|simpl; lia].
Qed.

(** ** What the script does not look at *)

(** X7: only the first element of the document is read. *)
Theorem only_first_log (entry : Entry num) rest :
  plotlog (entry :: rest) = plotlog [entry].
Proof. by rewrite !plotlog_tracks. Qed.

(** ** Documents without a non-index curve *)

(** X10: with at most one curve the loop does not run: the script extracts
    the index column and shows a titled figure without axes, and the metadata
    of the only curve is never read. *)
Theorem single_curve_no_subplot file log :
  file !! 0 = Some (complete log) → length (curves log) ≤ 1 →
  plotlog file = (_ ← index (data log); Ok (shown_figure [])).
Proof.
  intros Hlog HN. rewrite (plotlog_complete _ _ Hlog).
  replace (length (curves log) - 1) with 0 by lia. simpl.
  by destruct (index (data log)).
Qed.

(** ** The figure on screen *)

(** X11: a run that ends normally has set the figure title
    ["JSON Well Log"] and reached [plt.show()], and the current axes is the
    subplot of the last curve. *)
Theorem shown_figure_state file fig :
  plotlog file = Ok fig →
  fig_suptitle fig = Some "JSON Well Log"%string ∧ fig_shown fig = true ∧
  fig_current fig =
    (if fig_axes fig is [] then None else Some (length (fig_axes fig) - 1)).
Proof.
  rewrite plotlog_tracks.
  destruct (list_getitem file 0) as [entry|]; simpl; [|done].
  destruct (entry_getitem (entry_curves entry) _) as [cs|]; simpl; [|done].
  destruct (entry_getitem (entry_data entry) _) as [rows|]; simpl; [|done].
  destruct (index rows) as [idx|]; simpl; [|done].
  destruct (py_map _ (seq 1 _)) as [axs|]; simpl; [|done].
  by intros [= <-].
Qed.

(** X12: an iteration that ends normally, run on a figure whose subplots
    all sit at lower positions, has added exactly one axes, at position
    [curveIndex], behind the axes that were there, which it leaves as they
    were; the new axes is the current one, and title and display state are
    untouched. *)
Theorem loop_body_appends cs rows idx i s s' :
  index rows = Ok idx → 1 ≤ i < length cs →
  Forall (λ ax, ax_num ax < i) (fig_axes s) →
  loop_body cs rows idx i s = Ok ((), s') →
  ∃ ax, fig_axes s' = fig_axes s ++ [ax] ∧ ax_num ax = i ∧
    fig_current s' = Some (length (fig_axes s)) ∧
    fig_suptitle s' = fig_suptitle s ∧ fig_shown s' = fig_shown s.
Proof.
  intros Hidx Hi Hlow.
  rewrite loop_body_track; [|lia|by apply curve_length in Hidx|done].
  destruct (track cs rows idx i) as [ax|] eqn:Hax; [|done].
  intros [= <-]. exists ax. simpl. split; [done|].
  split; [by eapply track_num|done].
Qed.

(** ** Exactly the documents that are rendered *)

(** X1: the script reaches [plt.show()] exactly when the first element of
    the document has both keys, every row has a cell for the index and for
    each curve and, if there are at least two curves, every curve has a
    [name] and a [unit] and every cell that belongs to a curve can be
    converted to a double. *)
Theorem plotlog_Ok_iff file :
  (∃ fig, plotlog file = Ok fig) ↔
  ∃ log, file !! 0 = Some (complete log) ∧ renderable log.
Proof.
  split.
  - intros [fig Hfig].
    assert (∃ log, file !! 0 = Some (complete log)) as [log Hlog].
    { rewrite plotlog_tracks in Hfig. unfold list_getitem in Hfig.
      destruct (file !! 0) as [[[cs|] [rows|]]|]; try done.
      by exists {| curves := cs; data := rows |}. }
    exists log. split; [done|].
    destruct (plotlog_Ok_track _ _ _ Hlog Hfig) as (idx & Hidx & _ & Hax).
    rewrite index_curve in Hidx.
    pose proof (curve_Ok_inv _ _ _ Hidx) as Hidx_len.
    split.
    + apply Forall_lookup. intros k row Hrow. unfold cells_needed.
      pose proof (Forall_lookup_1 _ _ _ _ Hidx_len Hrow) as H0. simpl in H0.
      destruct (decide (2 ≤ length (curves log))) as [HN|HN]; [|lia].
      destruct (Hax (length (curves log) - 1)) as (ax & _ & Htrack); [lia|].
      apply track_Ok_inv in Htrack as (crv & ? & ? & Hcrv & _).
      apply curve_Ok_inv in Hcrv.
      pose proof (Forall_lookup_1 _ _ _ _ Hcrv Hrow) as H1. simpl in H1. lia.
    + intros HN. split.
      * apply Forall_lookup. intros j c Hc.
        pose proof (lookup_lt_Some _ _ _ Hc) as Hj.
        destruct (decide (j = 0)) as [->|Hne].
        -- destruct (Hax 1) as (ax & _ & Htrack); [lia|].
           apply track_Ok_inv in Htrack as (? & ? & yl & _ & _ & Hyl & _).
           simpl in Hyl. by eapply label_Ok_has_keys.
        -- destruct (Hax j) as (ax & _ & Htrack); [lia|].
           apply track_Ok_inv in Htrack as (? & xl & ? & _ & Hxl & _).
           by eapply label_Ok_has_keys.
      * apply Forall_lookup. intros k row Hrow.
        apply Forall_lookup. intros j c Hc.
        apply lookup_take_Some in Hc as [Hc Hj].
        destruct (decide (j = 0)) as [->|Hne].
        -- destruct (Hax 1) as (ax & _ & Htrack); [lia|].
           apply track_Ok_plottable in Htrack as (? & _ & _ & Hpi).
           apply (curve_cells _ _ _ plottable Hidx) in Hpi.
           by eapply (Forall_lookup_1 _ _ _ _ Hpi Hrow).
        -- destruct (Hax j) as (ax & _ & Htrack); [lia|].
           apply track_Ok_plottable in Htrack as (crv & Hcrv & Hpc & _).
           apply (curve_cells _ _ _ plottable Hcrv) in Hpc.
           by eapply (Forall_lookup_1 _ _ _ _ Hpc Hrow).
  - intros (log & Hlog & Hrows & Hrest). unfold cells_needed in Hrows.
    destruct (decide (2 ≤ length (curves log))) as [HN|HN].
    + destruct (Hrest HN) as [Hkeys Hcells].
      eapply plotlog_total; [done|done| |done].
      eapply Forall_impl; [exact Hrows|]. simpl. intros; lia.
    + rewrite (plotlog_complete _ _ Hlog).
      destruct (curve_total 0 (data log)) as [idx Hidx].
      { eapply Forall_impl; [exact Hrows|]. simpl. intros; lia. }
      rewrite index_curve, Hidx. simpl.
      replace (length (curves log) - 1) with 0 by lia. simpl. by eexists.
Qed.

(** X5: when the rows are long enough, every cell can be converted to a
    double and there are at least two curves, the curve metadata is read in
    the order of the curves, [name] before [unit]: the script ends with the
    [KeyError] of the first key that is missing. *)
Theorem first_missing_key_raised file log i c k :
  file !! 0 = Some (complete log) →
  Forall (λ row, cells_needed log ≤ length row) (data log) →
  Forall (Forall plottable) (data log) →
  2 ≤ length (curves log) →
  curves log !! i = Some c → missing_key c = Some k →
  Forall has_keys (take i (curves log)) →
  plotlog file = Raise (KeyError k).
Proof.
  intros Hlog Hrows Hcells HN Hc Hk Hbefore. unfold cells_needed in Hrows.
  pose proof (lookup_lt_Some _ _ _ Hc) as Hi.
  assert (∀ j, j < length (curves log) →
            ∃ crv, curve j (data log) = Ok crv ∧ Forall plottable crv)
    as Hcurve.
  { intros j Hj. destruct (curve_total j (data log)) as [crv Hcrv].
    - eapply Forall_impl; [exact Hrows|]. simpl. intros; lia.
    - exists crv. split; [done|]. by eapply curve_plottable. }
  pose proof (label_missing_key _ _ _ _ Hc Hk) as Hlabel.
  rewrite (plotlog_complete _ _ Hlog).
  destruct (Hcurve 0) as (idx & Hidx & Hpi); [lia|].
  rewrite index_curve, Hidx. simpl.
  set (i' := i `max` 1).
  assert (seq 1 (length (curves log) - 1) =
          seq 1 (i' - 1) ++ i' :: seq (S i') (length (curves log) - 1 - i'))
    as ->.
  { replace (length (curves log) - 1)
      with ((i' - 1) + S (length (curves log) - 1 - i')) at 1 by lia.
    rewrite seq_app. simpl. do 2 f_equal; [lia|f_equal; lia]. }
  destruct (py_map_total (track (curves log) (data log) idx) (seq 1 (i' - 1)))
    as [axs Haxs].
  { intros j Hj. apply elem_of_seq in Hj.
    destruct (Hcurve j) as (crv & Hcrv & Hpc); [lia|].
    destruct (label_prefix_has_keys (curves log) i j) as [xl Hxl];
      [done|lia|lia|].
    destruct (label_prefix_has_keys (curves log) i 0) as [yl Hyl];
      [done|lia|lia|].
    by eapply track_Ok. }
  rewrite (py_map_first_Raise _ _ _ _ _ (KeyError k) Haxs); [done|].
  unfold track.
  destruct (Hcurve i') as (crv & -> & Hpc); [lia|]. simpl.
  rewrite (to_float_array_Ok crv Hpc). simpl.
  rewrite (to_float_array_Ok idx Hpi). simpl.
  destruct (decide (i = 0)) as [->|Hne].
  - replace i' with 1 by lia. simpl. by rewrite Hlabel.
  - replace i' with i by lia.
    destruct (decide (i = 1)) as [->|Hne1].
    + destruct (label_prefix_has_keys (curves log) 1 0) as [yl ->];
        [done|lia|lia|]. simpl. by rewrite Hlabel.
    + simpl. by rewrite Hlabel.
Qed.

(** X8: cells beyond the index and one per curve are never read: cutting
    every row down to them changes neither the figure nor the exception. *)
Theorem extra_cells_ignored log (rest : list (Entry num)) :
  plotlog (complete log :: rest) = plotlog [complete (trim log)].
Proof.
  rewrite !plotlog_tracks. unfold trim, cells_needed. simpl.
  rewrite !index_curve, curve_take by lia.
  destruct (curve 0 (data log)) as [idx|]; simpl; [|done].
  erewrite py_map_ext; [done|].
  intros i Hi. apply elem_of_seq in Hi. unfold track.
  by rewrite curve_take by lia.
Qed.

(** X9: of the curve metadata only [name] and [unit] are read: two curve
    lists that agree on these keys, position by position, give the same
    figure or the same exception. *)
Theorem extra_keys_ignored cs cs' rows (rest rest' : list (Entry num)) :
  Forall2 same_labels cs cs' →
  plotlog (complete {| curves := cs; data := rows |} :: rest) =
  plotlog (complete {| curves := cs'; data := rows |} :: rest').
Proof.
  intros Hsame. rewrite !plotlog_tracks. simpl.
  destruct (index rows) as [idx|]; simpl; [|done].
  rewrite <- (Forall2_length _ _ _ Hsame).
  rewrite (py_map_ext (track cs rows idx) (track cs' rows idx)); [done|].
  intros i _. unfold track.
  rewrite <- (Forall2_length _ _ _ Hsame).
  by rewrite !(label_same_labels cs cs').
Qed.

End Script.

(** * The sample documents *)

Example plotlog_gamma : plotlog [complete gamma_log] = Ok gamma_fig.
Proof. vm_compute. reflexivity. Qed.

Example plotlog_triple : plotlog [complete triple_log] = Ok triple_fig.
Proof. vm_compute. reflexivity. Qed.

Example plotlog_unitless : plotlog [complete unitless_log] = Raise (KeyError "unit").
Proof. vm_compute. reflexivity. Qed.

Example plotlog_ragged : plotlog [complete ragged_log] = Raise IndexError.
Proof. vm_compute. reflexivity. Qed.

Example plotlog_huge : plotlog [complete huge_log] = Raise OverflowError.
Proof. vm_compute. reflexivity. Qed.

Example plotlog_no_document : plotlog (num := Z) [] = Raise IndexError.
Proof. reflexivity. Qed.

Example plotlog_no_curves_key :
  plotlog (num := Z) [ {| entry_curves := None; entry_data := None |} ] =
    Raise (KeyError "curves").
Proof. reflexivity. Qed.

Example plotlog_no_data_key :
  plotlog (num := Z) [ {| entry_curves := Some []; entry_data := None |} ] =
    Raise (KeyError "data").
Proof. reflexivity. Qed.

(** * The claims on the sample documents *)

Ltac solve_has_keys := split; eexists; vm_compute; reflexivity.

Ltac solve_Forall tac :=
  repeat first [apply Forall_nil_2 | apply Forall_cons_2; [tac|]].

Ltac solve_plottable :=
  solve_Forall ltac:(solve_Forall ltac:(vm_compute; reflexivity)).

Lemma triple_well_formed : well_formed triple_log.
Proof.
  split; [solve_Forall solve_has_keys | solve_Forall ltac:(reflexivity)].
Defined.

Lemma curve_projection_witness :
  ∃ col, curve 1 (data gamma_log) = Ok col ∧
    Some <$> col = (λ row, row !! 1) <$> data gamma_log ∧
    (1 = 0 → index (data gamma_log) = Ok col).
Proof.
  apply (curve_projection (data gamma_log) 1).
  solve_Forall ltac:(simpl; lia).
Defined.



(** The single subplot of [complete gamma_log] sits in a grid declared two columns
    wide, although the document has only [N - 1 = 1] non-index curve. *)
Lemma grid_width_counterexample :
  ∃ fig ax, plotlog [complete gamma_log] = Ok fig ∧
    fig_axes fig !! 0 = Some ax ∧ ax_num ax = 1 ∧
    ax_ncols ax = 2 ∧ ax_ncols ax ≠ length (curves gamma_log) - 1.
Proof.
  exists gamma_fig. eexists. split; [vm_compute; reflexivity|].
  split; [reflexivity|]. simpl. repeat split. lia.
Qed.

Lemma subplot_grid_witness :
  (∀ i, 1 ≤ i < 3 →
     ∃ ax, fig_axes triple_fig !! (i - 1) = Some ax ∧
       ax_nrows ax = 1 ∧ ax_ncols ax = 3 ∧ ax_num ax = i) ∧
  length (fig_axes triple_fig) = 2 ∧
  Forall (λ ax, ax_num ax ≠ 3) (fig_axes triple_fig).
Proof.
  apply (subplot_grid [complete triple_log] triple_log triple_fig);
    [reflexivity | vm_compute; reflexivity].
Defined.

Lemma vertical_labels_witness :
  ∃ fig first c0 name unit,
    plotlog [complete triple_log] = Ok fig ∧
    fig_axes fig !! 0 = Some first ∧ ax_num first = 1 ∧
    curves triple_log !! 0 = Some c0 ∧
    c0 !! "name"%string = Some name ∧ c0 !! "unit"%string = Some unit ∧
    ax_ylabel first = (name +:+ " [" +:+ unit +:+ "]")%string ∧
    ax_yticklabels first = None ∧
    ∀ ax, ax ∈ fig_axes fig → 1 < ax_num ax →
      ax_yticklabels ax = Some [] ∧ ax_ylabel ax = EmptyString.
Proof.
  apply (vertical_labels [complete triple_log] triple_log);
    [reflexivity | exact triple_well_formed | simpl; lia | solve_plottable].
Defined.

(** A well-formed log with two curves in which the gamma column holds the
    integer [2 ** 1024]: the script ends at [plt.plot], before any label or
    tick label is set, and no figure is shown. *)
Lemma vertical_labels_counterexample :
  well_formed huge_log ∧ 2 ≤ length (curves huge_log) ∧
  plotlog [complete huge_log] = Raise OverflowError ∧
  ¬ ∃ fig, plotlog [complete huge_log] = Ok fig.
Proof.
  split; [split; [solve_Forall solve_has_keys
                 | solve_Forall ltac:(reflexivity)]|].
  split; [simpl; lia|]. split; [vm_compute; reflexivity|].
  intros [fig Hfig]. vm_compute in Hfig. discriminate Hfig.
Qed.

Lemma horizontal_labels_witness :
  ∃ ax c name unit,
    fig_axes triple_fig !! 1 = Some ax ∧ ax_num ax = 2 ∧
    curves triple_log !! 2 = Some c ∧
    c !! "name"%string = Some name ∧ c !! "unit"%string = Some unit ∧
    ax_xlabel ax = (name +:+ " [" +:+ unit +:+ "]")%string ∧
    ax_xticks ax = Top ∧ ax_xlabel_position ax = Top.
Proof.
  apply (horizontal_labels [complete triple_log] triple_log triple_fig 2);
    [reflexivity | vm_compute; reflexivity | simpl; lia].
Defined.


(** Neither an empty [curves] list nor an empty [data] list stops the
    script: both documents are rendered and shown. *)
Lemma empty_inputs_counterexample :
  (curves no_curves_log = [] ∧
   ∃ fig, plotlog [complete no_curves_log] = Ok fig ∧ fig_shown fig = true) ∧
  (data no_data_log = [] ∧
   ∃ fig, plotlog [complete no_data_log] = Ok fig ∧ fig_shown fig = true).
Proof.
  split; (split; [reflexivity|]); eexists; split;
    first [vm_compute; reflexivity | reflexivity].
Qed.

Lemma missing_key_fails_witness : ∃ e, plotlog [complete unitless_log] = Raise e.
Proof.
  apply (missing_key_fails [complete unitless_log] unitless_log 1
           (<["name"%string := "Gamma"%string]> ∅));
    [reflexivity | simpl; lia | reflexivity |].
  intros [_ [unit Hunit]]. vm_compute in Hunit. discriminate Hunit.
Defined.

Lemma empty_data_columns_witness :
  index (data no_data_log) = Ok [] ∧
  (∀ i, curve i (data no_data_log) = Ok []) ∧
  (∀ s : Pyplot Z, ∃ s', plt_plot [] [] s = Ok ((), s')) ∧
  (∀ file e, file !! 0 = Some (complete no_data_log) → plotlog file = Raise e →
     ∃ k, e = KeyError k).
Proof. apply (empty_data_columns no_data_log). reflexivity. Defined.

Lemma short_row_fails_witness :
  curve 1 (data ragged_log) = Raise IndexError ∧
  (1 = 0 → index (data ragged_log) = Raise IndexError) ∧
  (1 < length (curves ragged_log) →
     ∀ file, file !! 0 = Some (complete ragged_log) → ∃ e, plotlog file = Raise e).
Proof.
  apply (short_row_fails ragged_log [1%Z] 1); [|simpl; lia].
  apply list_elem_of_further, list_elem_of_here.
Defined.

Lemma column_lengths_witness :
  length [0; 1; 2]%Z = length (data gamma_log) ∧
  length [10; 20; 15]%Z = length (data gamma_log) ∧
  length [10; 20; 15]%Z = length [0; 1; 2]%Z.
Proof.
  apply (column_lengths (data gamma_log) 1); reflexivity.
Defined.

(** * The further properties on the sample documents *)

Lemma complete_metadata_IndexError_witness : IndexError = IndexError.
Proof.
  apply (complete_metadata_IndexError [complete ragged_log] ragged_log
           IndexError);
    [reflexivity | solve_Forall solve_has_keys | solve_plottable
    | vm_compute; reflexivity].
Defined.

Lemma long_rows_KeyError_witness :
  KeyError "unit" = KeyError "name" ∨ KeyError "unit" = KeyError "unit".
Proof.
  apply (long_rows_KeyError [complete unitless_log] unitless_log
           (KeyError "unit"));
    [reflexivity | solve_Forall ltac:(vm_compute; lia) | solve_plottable
    | vm_compute; reflexivity].
Defined.

Lemma first_missing_key_raised_witness :
  plotlog [complete unitless_log] = Raise (KeyError "unit").
Proof.
  apply (first_missing_key_raised [complete unitless_log] unitless_log 1
           (<["name"%string := "Gamma"%string]> ∅) "unit");
    [reflexivity | solve_Forall ltac:(vm_compute; lia) | solve_plottable
    | simpl; lia | reflexivity | vm_compute; reflexivity
    | solve_Forall solve_has_keys].
Defined.

Lemma empty_row_IndexError_witness : plotlog [complete blank_row_log] = Raise IndexError.
Proof.
  apply (empty_row_IndexError [complete blank_row_log] blank_row_log); [reflexivity|].
  apply list_elem_of_further, list_elem_of_here.
Defined.

Lemma extra_keys_ignored_witness :
  plotlog [complete {| curves := curves wide_log; data := data wide_log |}] =
  plotlog [complete {| curves := curves gamma_log; data := data wide_log |}].
Proof.
  apply (extra_keys_ignored (curves wide_log) (curves gamma_log)
           (data wide_log) [] []).
  repeat first [apply Forall2_nil_2
               | apply Forall2_cons_2; [split; vm_compute; reflexivity|]].
Defined.

Lemma single_curve_no_subplot_witness :
  plotlog [complete depth_only_log] =
    (_ ← index (data depth_only_log); Ok (shown_figure [])).
Proof.
  apply (single_curve_no_subplot [complete depth_only_log] depth_only_log);
    [reflexivity | simpl; lia].
Defined.

Lemma shown_figure_state_witness :
  fig_suptitle gamma_fig = Some "JSON Well Log"%string ∧
  fig_shown gamma_fig = true ∧
  fig_current gamma_fig =
    (if fig_axes gamma_fig is [] then None
     else Some (length (fig_axes gamma_fig) - 1)).
Proof.
  apply (shown_figure_state [complete gamma_log] gamma_fig). vm_compute. reflexivity.
Defined.

(** The second iteration on [triple_log], run on the figure that holds the
    subplot of the first. *)
Lemma loop_body_appends_witness :
  ∃ ax, fig_axes (set_axes (fig_axes triple_fig) (Some 1) fresh_pyplot) =
          fig_axes triple_half ++ [ax] ∧
    ax_num ax = 2 ∧
    fig_current (set_axes (fig_axes triple_fig) (Some 1) fresh_pyplot) =
      Some (length (fig_axes triple_half)) ∧
    fig_suptitle (set_axes (fig_axes triple_fig) (Some 1) fresh_pyplot) =
      fig_suptitle triple_half ∧
    fig_shown (set_axes (fig_axes triple_fig) (Some 1) fresh_pyplot) =
      fig_shown triple_half.
Proof.
  apply (loop_body_appends (curves triple_log) (data triple_log)
           [0; 1; 2]%Z 2 triple_half
           (set_axes (fig_axes triple_fig) (Some 1) fresh_pyplot));
    [reflexivity | simpl; lia
    | solve_Forall ltac:(simpl; lia) | vm_compute; reflexivity].
Defined.
